(** * A shallow embedding of [day-04-dockerfile-basics/Project-2/app.py]

    The program is a Flask application with two view functions, [home]
    (route [/]) and [health] (route [/health]), started by
    [app.run(host='0.0.0.0', port=5000, debug=True)].

    The view functions read the host name and the wall clock of the machine
    they run on; both are modelled as components of an explicit [world] that
    is threaded through a small state monad.  The calls into the Python
    standard library ([datetime.isoformat]) and into Flask ([jsonify],
    [route], [run]) are modelled by what they return for the arguments the
    program passes. *)

From Stdlib Require Import ZArith Ascii String List Lia.
From stdpp Require Import base option gmap strings.

Local Open Scope Z_scope.

(** ** Decimal fields *)

Module Decimal.

(** The character of a decimal digit [0 <= d <= 9]. *)
Definition digit_char (d : Z) : ascii := ascii_of_N (48 + Z.to_N d).

Definition is_digit (c : ascii) : bool :=
  ((48 <=? N_of_ascii c) && (N_of_ascii c <=? 57))%N.

Definition digit_val (c : ascii) : Z := Z.of_N (N_of_ascii c) - 48.

(** [zfill k n] is Python's ["%0kd" % n] for [0 <= n < 10^k]: exactly [k]
    digits, most significant first. *)
Fixpoint zfill (k : nat) (n : Z) : string :=
  match k with
  | O => EmptyString
  | S k' => String (digit_char (n / 10 ^ Z.of_nat k'))
                   (zfill k' (n mod 10 ^ Z.of_nat k'))
  end.

(** Read exactly [k] digits from the front of [s]. *)
Fixpoint read_digits (k : nat) (acc : Z) (s : string) : option (Z * string) :=
  match k with
  | O => Some (acc, s)
  | S k' =>
      match s with
      | String c s' =>
          if is_digit c then read_digits k' (10 * acc + digit_val c) s'
          else None
      | EmptyString => None
      end
  end.

(** Read one expected character. *)
Definition read_char (c : ascii) (s : string) : option string :=
  match s with
  | String c' s' => if Ascii.eqb c c' then Some s' else None
  | EmptyString => None
  end.

End Decimal.

(** ** The part of Python's [datetime] module the program uses *)

Module Datetime.
Import Decimal.

(** What the local clock of the machine reads: the broken-down local time
    the C library hands to [datetime.datetime.now()]. *)
Record reading := mk_reading {
  year : Z; month : Z; day : Z;
  hour : Z; minute : Z; second : Z; microsecond : Z
}.

(** A [datetime.datetime] object: its fields and its [tzinfo], here the
    UTC offset in microseconds ([None] for a naive object). *)
Record datetime := mk_datetime {
  fields : reading;
  tzinfo : option Z
}.

Definition _is_leap (y : Z) : bool :=
  (y mod 4 =? 0) && (negb (y mod 100 =? 0) || (y mod 400 =? 0)).

Definition _DAYS_IN_MONTH : list Z :=
  [31; 28; 31; 30; 31; 30; 31; 31; 30; 31; 30; 31].

Definition _days_in_month (y m : Z) : Z :=
  if (m =? 2) && _is_leap y then 29
  else nth (Z.to_nat (m - 1)) _DAYS_IN_MONTH 0.

(** [_check_date_fields] and [_check_time_fields]: the ranges every
    [datetime] object satisfies. *)
Definition _check_date_fields (y m d : Z) : bool :=
  (1 <=? y) && (y <=? 9999) && (1 <=? m) && (m <=? 12) &&
  (1 <=? d) && (d <=? _days_in_month y m).

Definition _check_time_fields (hh mm ss us : Z) : bool :=
  (0 <=? hh) && (hh <=? 23) && (0 <=? mm) && (mm <=? 59) &&
  (0 <=? ss) && (ss <=? 59) && (0 <=? us) && (us <=? 999999).

Definition valid (r : reading) : bool :=
  _check_date_fields (year r) (month r) (day r) &&
  _check_time_fields (hour r) (minute r) (second r) (microsecond r).

(** [datetime.__lt__] and friends on naive objects compare the field
    tuples lexicographically. *)
Definition to_tuple (r : reading) : list Z :=
  [year r; month r; day r; hour r; minute r; second r; microsecond r].

Fixpoint _cmp (a b : list Z) : comparison :=
  match a, b with
  | [], [] => Eq
  | [], _ :: _ => Lt
  | _ :: _, [] => Gt
  | x :: a', y :: b' =>
      match x ?= y with
      | Eq => _cmp a' b'
      | ne => ne
      end
  end.

Definition compare (r1 r2 : reading) : comparison :=
  _cmp (to_tuple r1) (to_tuple r2).

Definition leb (r1 r2 : reading) : bool :=
  match compare r1 r2 with Gt => false | _ => true end.

(** [_format_time] with [timespec='auto']: the microseconds are printed
    only when they are not zero. *)
Definition _format_time (hh mm ss us : Z) : string :=
  zfill 2 hh +:+ ":" +:+ zfill 2 mm +:+ ":" +:+ zfill 2 ss +:+
  (if us =? 0 then "" else "." +:+ zfill 6 us).

(** The fraction of a second as [_format_time] prints it. *)
Definition fraction (us : Z) : string :=
  if us =? 0 then EmptyString else String "." (zfill 6 us +:+ EmptyString).

(** [_format_offset]: empty for a naive object, [+HH:MM[:SS[.ffffff]]]
    otherwise. *)
Definition _format_offset (off : option Z) : string :=
  match off with
  | None => ""
  | Some o =>
      let sign := if o <? 0 then "-" else "+" in
      let a := Z.abs o in
      let hh := a / 3600000000 in
      let mm := (a mod 3600000000) / 60000000 in
      let ss := a mod 60000000 in
      sign +:+ zfill 2 hh +:+ ":" +:+ zfill 2 mm +:+
      (if ss =? 0 then ""
       else ":" +:+ zfill 2 (ss / 1000000) +:+
            (if ss mod 1000000 =? 0 then ""
             else "." +:+ zfill 6 (ss mod 1000000)))
  end.

(** [datetime.isoformat()] with the default [sep='T']. *)
Definition isoformat (d : datetime) : string :=
  let r := fields d in
  zfill 4 (year r) +:+ "-" +:+ zfill 2 (month r) +:+ "-" +:+
  zfill 2 (day r) +:+ "T" +:+
  _format_time (hour r) (minute r) (second r) (microsecond r) +:+
  _format_offset (tzinfo d).

End Datetime.

(** ** ISO 8601 date and time strings

    The reader against which the [timestamp] field is checked.  It accepts
    the extended format [YYYY-MM-DDThh:mm:ss], an optional decimal fraction
    of one to six digits, and an optional zone designator ([Z] or
    [+hh:mm] / [-hh:mm]); the fields must denote a date of the calendar and
    a time of the day.  The result is the reading and, when a designator is
    present, its offset from UTC in minutes. *)

Module Iso8601.
Import Decimal Datetime.

(** Up to [k] further digits of a fraction, scaled to [k] places. *)
Fixpoint read_upto (k : nat) (acc : Z) (s : string) : Z * string :=
  match k with
  | O => (acc, s)
  | S k' =>
      match s with
      | String c s' =>
          if is_digit c then read_upto k' (10 * acc + digit_val c) s'
          else (acc * 10 ^ Z.of_nat k, s)
      | EmptyString => (acc * 10 ^ Z.of_nat k, s)
      end
  end.

Definition read_fraction (s : string) : option (Z * string) :=
  match s with
  | String "." s' =>
      match s' with
      | String c s'' =>
          if is_digit c then Some (read_upto 5 (digit_val c) s'') else None
      | EmptyString => None
      end
  | _ => Some (0, s)
  end.

Definition read_zone (s : string) : option (option Z) :=
  match s with
  | EmptyString => Some None
  | String "Z" EmptyString => Some (Some 0)
  | String c s' =>
      if Ascii.eqb c "+" || Ascii.eqb c "-" then
        '(hh, s1) ← read_digits 2 0 s';
        s2 ← read_char ":" s1;
        '(mm, s3) ← read_digits 2 0 s2;
        match s3 with
        | EmptyString =>
            if (hh <=? 23) && (mm <=? 59)
            then Some (Some ((if Ascii.eqb c "-" then -1 else 1) * (60 * hh + mm)))
            else None
        | String _ _ => None
        end
      else None
  end.

Definition parse (s : string) : option (reading * option Z) :=
  '(y, s) ← read_digits 4 0 s;
  s ← read_char "-" s;
  '(m, s) ← read_digits 2 0 s;
  s ← read_char "-" s;
  '(d, s) ← read_digits 2 0 s;
  s ← read_char "T" s;
  '(hh, s) ← read_digits 2 0 s;
  s ← read_char ":" s;
  '(mm, s) ← read_digits 2 0 s;
  s ← read_char ":" s;
  '(ss, s) ← read_digits 2 0 s;
  '(us, s) ← read_fraction s;
  zone ← read_zone s;
  let r := mk_reading y m d hh mm ss us in
  if valid r then Some (r, zone) else None.

(** The characters after the [T]: the time of day and the designator. *)
Fixpoint after_T (s : string) : string :=
  match s with
  | EmptyString => EmptyString
  | String c s' => if Ascii.eqb c "T" then s' else after_T s'
  end.

Fixpoint occurs (c : ascii) (s : string) : bool :=
  match s with
  | EmptyString => false
  | String c' s' => Ascii.eqb c c' || occurs c s'
  end.

(** A zone designator is a [Z], or a sign in the part after the [T]. *)
Definition has_zone_designator (s : string) : bool :=
  occurs "Z" (after_T s) || occurs "+" (after_T s) || occurs "-" (after_T s).

End Iso8601.

(** ** The machine the process runs on *)

(** What the program can observe of its surroundings: the host name
    ([socket.gethostname()]), the local wall clock with the offset of local
    time from UTC then in force (in minutes), the ambient inputs of a
    process (environment variables, command line, files), and the TCP ports
    of the host that are taken. *)
Record world := mk_world {
  hostname : string;
  clock : Datetime.reading;
  utc_offset : Z;
  environ : gmap string string;
  argv : list string;
  files : gmap string string;
  ports_in_use : list Z
}.

(** Computations that may read and write the world. *)
Definition IO (A : Type) : Type := world → A * world.

Global Instance IO_ret : MRet IO := λ A (a : A) (w : world), (a, w).
Global Instance IO_bind : MBind IO :=
  λ A B (f : A → IO B) (m : IO A) (w : world), let '(a, w') := m w in f a w'.

Definition result {A} (m : IO A) (w : world) : A := fst (m w).
Definition state_after {A} (m : IO A) (w : world) : world := snd (m w).

(** [socket.gethostname()] *)
Definition gethostname : IO string := λ w, (hostname w, w).

(** [datetime.datetime.now()]: no [tz] argument, so the object is naive. *)
Definition now : IO Datetime.datetime :=
  λ w, (Datetime.mk_datetime (clock w) None, w).

(** ** The part of Flask the program uses *)

Module Flask.

Record request := mk_request {
  method : string;
  path : string;
  query_string : string;
  headers : list (string * string);
  data : string
}.

(** The body of a response: a JSON document (an object whose members are
    strings is all the program produces), the page of an HTTP error, or
    nothing. *)
Inductive payload :=
| JsonDoc (d : gmap string string)
| ErrorPage (name : string)
| Empty.

Record response := mk_response {
  status_code : Z;
  mimetype : string;
  body : payload
}.

(** A dictionary display [{k1: v1, ...}]: the items are inserted from left
    to right. *)
Definition dict (items : list (string * string)) : gmap string string :=
  foldl (λ m kv, <[kv.1 := kv.2]> m) ∅ items.

(** [jsonify(d)]: a response with status 200 whose body is the JSON
    document of [d]. *)
Definition jsonify (d : gmap string string) : response :=
  mk_response 200 "application/json" (JsonDoc d).

Definition json (r : response) : option (gmap string string) :=
  match body r with
  | JsonDoc d => Some d
  | _ => None
  end.

(** The member [k] of the JSON document of a response, and its keys. *)
Definition field (k : string) (r : response) : option string :=
  json r ≫= λ d, d !! k.

Definition keys (r : response) : option (gset string) := dom <$> json r.

(** The body is a JSON document and no member of it is the empty string. *)
Definition all_fields_nonempty (r : response) : Prop :=
  is_Some (json r) ∧ ∀ k v, field k r = Some v → v ≠ "".

(** The response made from an [HTTPException]. *)
Definition http_exception (code : Z) (name : string) : response :=
  mk_response code "text/html" (ErrorPage name).

Definition not_found : response := http_exception 404 "Not Found".
Definition method_not_allowed : response :=
  http_exception 405 "Method Not Allowed".
Definition internal_server_error : response :=
  http_exception 500 "Internal Server Error".

(** [make_default_options_response] *)
Definition default_options_response : response :=
  mk_response 200 "text/html" Empty.

Record rule := mk_rule {
  rule_path : string;
  endpoint : string;
  methods : list string
}.

Record App := mk_app {
  url_map : list rule;
  view_functions : gmap string (IO response)
}.

(** The rules and view functions of the program in [Flask(__name__)]: none
    yet.  The rule Flask brings by itself for the files of the [static]
    folder is not kept in this table; it is matched in
    [Wsgi.route_request]. *)
Definition new : App := mk_app [] ∅.

(** [@app.route(p)] on a function named [name]: the rule is added with
    the default methods ([GET], to which [HEAD] and [OPTIONS] are added)
    and the function is registered under its name. *)
Definition route (p : string) (name : string) (f : IO response) (a : App) : App :=
  mk_app (url_map a ++ [mk_rule p name ["GET"; "HEAD"; "OPTIONS"]])
         (<[name := f]> (view_functions a)).

Inductive routing :=
| Matched (r : rule)
| NoMatch
| WrongMethod.

(** Matching against the rules of the program.  They hold no converters,
    so a rule matches a path equal to its own; a path that matches with
    another method only is remembered.  What Werkzeug does to the path
    beforehand and to a path nothing matches is in [Wsgi.route_request]. *)
Fixpoint url_match (rules : list rule) (seen : bool) (m p : string) : routing :=
  match rules with
  | [] => if seen then WrongMethod else NoMatch
  | r :: rules' =>
      if bool_decide (rule_path r = p) then
        if bool_decide (m ∈ methods r) then Matched r
        else url_match rules' true m p
      else url_match rules' seen m p
  end.

(** What routing decides for a request: a view function to call, or a
    response the framework makes by itself. *)
Inductive resolution :=
| Call (name : string) (view : IO response)
| Reply (r : response).

(** Route the request; answer [OPTIONS] automatically; otherwise look up
    the view function of the rule's endpoint.  Routing failures become
    their error responses, as in [full_dispatch_request]. *)
Definition resolve (a : App) (req : request) : resolution :=
  match url_match (url_map a) false (method req) (path req) with
  | NoMatch => Reply not_found
  | WrongMethod => Reply method_not_allowed
  | Matched r =>
      if bool_decide (method req = "OPTIONS") then Reply default_options_response
      else match view_functions a !! endpoint r with
           | Some view => Call (endpoint r) view
           | None => Reply internal_server_error
           end
  end.

(** [dispatch_request]: call the view function routing has found. *)
Definition dispatch_request (a : App) (req : request) : IO response :=
  match resolve a req with
  | Call _ view => view
  | Reply r => mret r
  end.

(** The view function of the program that [dispatch_request] calls for a
    request, if any: both are read off [resolve].  The static view of the
    framework is accounted for in [Wsgi.called_view]. *)
Definition dispatched_to (a : App) (req : request) : option string :=
  match resolve a req with
  | Call name _ => Some name
  | Reply _ => None
  end.

(** A request with the method [GET] or [HEAD], the ones handed on to a
    view function. *)
Definition for_view (req : request) : Prop :=
  method req = "GET" ∨ method req = "HEAD".

(** A server for the application that listens on [host] and [port]. *)
Record server := mk_server {
  host : string;
  port : Z;
  debug : bool;
  application : App
}.

(** [app.run] does nothing when the variable [FLASK_RUN_FROM_CLI] of the
    environment is [true] (the module is being loaded by [flask run]). *)
Definition run_from_cli (w : world) : bool :=
  bool_decide (environ w !! "FLASK_RUN_FROM_CLI" = Some "true").

Definition port_taken (p : Z) (w : world) : bool :=
  bool_decide (p ∈ ports_in_use w).

(** [app.run(host, port, debug)]: the server it starts, if it starts one.
    It returns at once when run from the command line interface, and the
    process ends without serving when the port cannot be bound.  The
    reloader and the debugger that [debug=True] adds to the development
    server are not modelled. *)
Definition run (a : App) (h : string) (p : Z) (dbg : bool) : IO (option server) :=
  λ w, if run_from_cli w then (None, w)
       else if port_taken p w then (None, w)
       else (Some (mk_server h p dbg a), w).

End Flask.

(** ** The application as the server calls it

    On top of the rules a program registers, Flask and Werkzeug bring a
    rule of their own, [/static/<path:filename>], and treat the path of a
    request before they match it.  This layer is written for an application
    whose own rules are plain paths, as the ones of this program are, and
    for paths without line breaks. *)

Module Wsgi.
Import Flask.

(** [path_info.lstrip('/')] *)
Fixpoint lstrip_slash (s : string) : string :=
  match s with
  | EmptyString => EmptyString
  | String c s' => if Ascii.eqb c "/" then lstrip_slash s' else s
  end.

(** The path that is matched: one slash and the path without its leading
    slashes, or nothing for the empty path. *)
Definition path_part (path_info : string) : string :=
  match path_info with
  | EmptyString => EmptyString
  | String _ _ => String "/" (lstrip_slash path_info)
  end.

(** The second try of the matcher, [re.sub("/{2,}?", "/", path)]: every
    pair of slashes, from the left, becomes one slash. *)
Fixpoint merge_slashes (s : string) : string :=
  match s with
  | EmptyString => EmptyString
  | String c s' =>
      match s' with
      | String c' s'' =>
          if Ascii.eqb c "/" && Ascii.eqb c' "/"
          then String "/" (merge_slashes s'')
          else String c (merge_slashes s')
      | EmptyString => s
      end
  end.

(** The [filename] of a path that the rule [/static/<path:filename>]
    matches: what follows [/static/], when it is not empty and does not
    begin with a slash. *)
Definition static_filename (p : string) : option string :=
  if String.prefix "/static/" p then
    match String.substring 8 (String.length p - 8) p with
    | EmptyString => None
    | String c f => if Ascii.eqb c "/" then None else Some (String c f)
    end
  else None.

Definition default_methods : list string := ["GET"; "HEAD"; "OPTIONS"].

Definition with_path (p : string) (req : request) : request :=
  mk_request (method req) p (query_string req) (headers req) (data req).

(** What matching decides: a view function of the program to call, the
    static view to call, a redirect to another path, or a response the
    framework makes by itself. *)
Inductive routed :=
| ToView (name : string) (view : IO response)
| ToStatic (filename : string)
| RedirectTo (location : string)
| Finished (r : response).

Definition route_request (a : App) (req : request) : routed :=
  let m := method req in
  let p := path_part (path req) in
  let allowed := bool_decide (m ∈ default_methods) in
  match p with
  | EmptyString =>
      (* the rule [/] would match with a slash more *)
      match url_match (url_map a) false m "/" with
      | Matched _ => RedirectTo "/"
      | _ => Finished not_found
      end
  | String _ _ =>
      match static_filename p with
      | Some f =>
          if allowed then
            if bool_decide (m = "OPTIONS") then Finished default_options_response
            else ToStatic f
          else Finished method_not_allowed
      | None =>
          match url_match (url_map a) false m p with
          | NoMatch =>
              let q := merge_slashes p in
              if bool_decide (q = p) then Finished not_found
              else match static_filename q with
                   | Some _ =>
                       if allowed then RedirectTo q else Finished method_not_allowed
                   | None =>
                       match url_match (url_map a) false m q with
                       | Matched _ => RedirectTo q
                       | WrongMethod => Finished method_not_allowed
                       | NoMatch => Finished not_found
                       end
                   end
          | _ =>
              match resolve a (with_path p req) with
              | Call name view => ToView name view
              | Reply r => Finished r
              end
          end
      end
  end.

(** What the application hands back to the server: a response, the 308
    redirect of the matcher, or whatever [send_static_file(filename)] makes
    of a file of the static folder, which is left open here. *)
Inductive outcome :=
| Answered (r : response)
| Redirected (location : string)
| StaticFile (filename : string).

(** [wsgi_app]: match the request and call the view function. *)
Definition wsgi_app (a : App) (req : request) : IO outcome :=
  match route_request a req with
  | ToView _ view => r ← view; mret (Answered r)
  | ToStatic f => mret (StaticFile f)
  | RedirectTo q => mret (Redirected q)
  | Finished r => mret (Answered r)
  end.

(** The view function [wsgi_app] calls for a request, if any. *)
Definition called_view (a : App) (req : request) : option string :=
  match route_request a req with
  | ToView name _ => Some name
  | ToStatic _ => Some "static"
  | RedirectTo _ => None
  | Finished _ => None
  end.

End Wsgi.

(** ** The program *)

(** [def home()], lines 7 to 13.  The values of the dictionary display are
    evaluated in the order they are written. *)
Definition home : IO Flask.response :=
  h ← gethostname;
  t ← now;
  mret (Flask.jsonify (Flask.dict [
    ("message", "Hello from Dockerized Flask!");
    ("container", h);
    ("timestamp", Datetime.isoformat t)
  ])).

(** [def health()], lines 15 to 17. *)
Definition health : IO Flask.response :=
  mret (Flask.jsonify (Flask.dict [("status", "healthy")])).

(** The application object after the module body has run (lines 5 to 17). *)
Definition app : Flask.App :=
  Flask.route "/health" "health" health
    (Flask.route "/" "home" home Flask.new).

(** Lines 19 and 20: the server is started only when the module is the
    main program. *)
Definition main (__name__ : string) : IO (option Flask.server) :=
  if bool_decide (__name__ = "__main__")
  then Flask.run app "0.0.0.0" 5000 true
  else mret None.

(** ** The life of the process *)

(** What happens to a serving process from outside: time passes or the
    clock is set, the host is renamed, a request arrives (with the path the
    rules are matched against), or the process is told to stop. *)
Inductive input :=
| ClockReads (t : Datetime.reading)
| HostRenamed (h : string)
| Incoming (req : Flask.request)
| Interrupt.

Inductive process :=
| Serving (srv : Flask.server) (w : world)
| Stopped.

Definition set_clock (t : Datetime.reading) (w : world) : world :=
  mk_world (hostname w) t (utc_offset w) (environ w) (argv w) (files w)
           (ports_in_use w).

Definition set_hostname (h : string) (w : world) : world :=
  mk_world h (clock w) (utc_offset w) (environ w) (argv w) (files w)
           (ports_in_use w).

(** The same clock reading in another time zone: another instant. *)
Definition in_zone (z : Z) (w : world) : world :=
  mk_world (hostname w) (clock w) z (environ w) (argv w) (files w)
           (ports_in_use w).

(** The server of line 20. *)
Definition the_server : Flask.server := Flask.mk_server "0.0.0.0" 5000 true app.

Definition start (w : world) : process :=
  match main "__main__" w with
  | (Some srv, w') => Serving srv w'
  | (None, _) => Stopped
  end.

Definition step (p : process) (i : input) : process * list Flask.response :=
  match p with
  | Stopped => (Stopped, [])
  | Serving srv w =>
      match i with
      | ClockReads t => (Serving srv (set_clock t w), [])
      | HostRenamed h => (Serving srv (set_hostname h w), [])
      | Incoming req =>
          let '(resp, w') := Flask.dispatch_request (Flask.application srv) req w in
          (Serving srv w', [resp])
      | Interrupt => (Stopped, [])
      end
  end.

(** [serve_forever]: the responses the application returns for the requests
    of a run, in order, and the final state.  What the development server
    does around the application is outside the model: the debugger that
    [debug=True] adds answers requests that carry [__debugger__] by itself,
    and the body of the response to [HEAD] is not sent. *)
Fixpoint serve_forever (p : process) (ins : list input) : process * list Flask.response :=
  match ins with
  | [] => (p, [])
  | i :: ins' =>
      let '(p', out) := step p i in
      let '(p'', out') := serve_forever p' ins' in
      (p'', out ++ out')
  end.

Definition get (path : string) : Flask.request :=
  Flask.mk_request "GET" path "" [] "".

(** The members of the JSON documents among a list of responses. *)
Definition members (k : string) (rs : list Flask.response) : list string :=
  omap (Flask.field k) rs.

(** A list of strings that are all the same. *)
Definition all_equal (l : list string) : bool :=
  match l with
  | [] => true
  | s :: l' => forallb (String.eqb s) l'
  end.

(** The clock is never set back: every reading is a valid one and not
    earlier than the one before it. *)
Fixpoint clock_never_set_back (t : Datetime.reading) (ins : list input) : bool :=
  match ins with
  | [] => true
  | ClockReads t' :: ins' =>
      Datetime.valid t' && Datetime.leb t t' && clock_never_set_back t' ins'
  | _ :: ins' => clock_never_set_back t ins'
  end.

(** The host is never renamed. *)
Definition is_rename (i : input) : bool :=
  match i with HostRenamed _ => true | _ => false end.

Definition host_never_renamed (ins : list input) : bool :=
  forallb (λ i, negb (is_rename i)) ins.




(** A list of strings in non-decreasing order: every element is less than
    or equal to every later one. *)
Fixpoint nondecreasing (l : list string) : bool :=
  match l with
  | [] => true
  | s :: l' => forallb (String.leb s) l' && nondecreasing l'
  end.

(** ** Sample runs *)

Definition w_sample : world :=
  mk_world "web-1" (Datetime.mk_reading 2024 11 3 1 59 59 0) 0 ∅ [] ∅ [].

(** The same host and clock, with other surroundings. *)
Definition w_sample_env : world :=
  mk_world "web-1" (Datetime.mk_reading 2024 11 3 1 59 59 0) (-240)
           {["FLASK_RUN_PORT" := "8080"]} ["app.py"; "--port"; "8080"]
           {["config.py" := "PORT = 8080"]} [8080].


(** A host whose name is the empty string. *)
Definition w_unnamed : world :=
  mk_world "" (Datetime.mk_reading 2024 11 3 1 59 59 0) 0 ∅ [] ∅ [].

(** The clock runs on between the requests. *)
Definition clock_runs_on : list input :=
  [Incoming (get "/");
   ClockReads (Datetime.mk_reading 2024 11 3 2 0 0 125000);
   Incoming (get "/health");
   Incoming (get "/")].

(** The clock is put back by an hour between two requests, as at the end
    of daylight saving time. *)
Definition clock_set_back : list input :=
  [Incoming (get "/");
   ClockReads (Datetime.mk_reading 2024 11 3 1 0 0 0);
   Incoming (get "/")].

(** The host is renamed between two requests. *)
Definition host_renamed : list input :=
  [Incoming (get "/"); HostRenamed "web-2"; Incoming (get "/")].

(** Two requests for [/] that differ in everything but the path. *)
Definition plain_request : Flask.request := get "/".

Definition loaded_request : Flask.request :=
  Flask.mk_request "HEAD" "/" "verbose=1&name=x"
                   [("X-Request-Id", "42"); ("Accept", "text/plain")] "{}".

(** ** The surroundings during a run *)







Definition post_request : Flask.request :=
  Flask.mk_request "POST" "/" "" [("Content-Type", "application/json")] "{}".


Definition post_static_request : Flask.request :=
  Flask.mk_request "POST" "/static/logo.png" "" [] "".

(** The same host a quarter of a second later. *)
Definition w_later : world :=
  mk_world "web-1" (Datetime.mk_reading 2024 11 3 1 59 59 250000) 0 ∅ [] ∅ [].

(** * Properties *)

(** ** The model on concrete inputs *)

Example zfill_year : Decimal.zfill 4 987 = "0987".
Proof. reflexivity. Qed.

Example isoformat_whole_second :
  Datetime.isoformat
    (Datetime.mk_datetime (Datetime.mk_reading 2024 3 9 7 5 0 0) None)
  = "2024-03-09T07:05:00".
Proof. reflexivity. Qed.

Example isoformat_microseconds :
  Datetime.isoformat
    (Datetime.mk_datetime (Datetime.mk_reading 2024 3 9 7 5 0 1250) None)
  = "2024-03-09T07:05:00.001250".
Proof. reflexivity. Qed.

Example isoformat_aware :
  Datetime.isoformat
    (Datetime.mk_datetime (Datetime.mk_reading 2024 3 9 7 5 0 0)
                          (Some (-19800000000)))
  = "2024-03-09T07:05:00-05:30".
Proof. reflexivity. Qed.

Example parse_rejects_30_february : Iso8601.parse "2024-02-30T01:59:59" = None.
Proof. reflexivity. Qed.

Example parse_reads_zone :
  Iso8601.parse "2024-11-03T01:59:59.25+05:30"
  = Some (Datetime.mk_reading 2024 11 3 1 59 59 250000, Some 330).
Proof. reflexivity. Qed.

Example get_root :
  map_to_list <$> Flask.json (result (Flask.dispatch_request app (get "/")) w_sample)
  = Some [("container", "web-1");
          ("message", "Hello from Dockerized Flask!");
          ("timestamp", "2024-11-03T01:59:59")].
Proof. vm_compute. reflexivity. Qed.

Example get_health :
  result (Flask.dispatch_request app (get "/health")) w_sample
  = Flask.mk_response 200 "application/json" (Flask.JsonDoc {["status" := "healthy"]}).
Proof. vm_compute. reflexivity. Qed.

Example post_root :
  Flask.status_code
    (result (Flask.dispatch_request app (Flask.mk_request "POST" "/" "" [] "")) w_sample)
  = 405.
Proof. vm_compute. reflexivity. Qed.

Example get_health_slash :
  Flask.status_code (result (Flask.dispatch_request app (get "/health/")) w_sample) = 404.
Proof. vm_compute. reflexivity. Qed.

(** ** Decimal fields *)

Module DecimalFacts.
Import Decimal.

Lemma digit_cases (d : Z) :
  0 <= d <= 9 →
  d = 0 ∨ d = 1 ∨ d = 2 ∨ d = 3 ∨ d = 4 ∨ d = 5 ∨ d = 6 ∨ d = 7 ∨ d = 8 ∨ d = 9.
Proof. lia. Qed.

Ltac each_digit d H :=
  destruct (digit_cases d H) as [->|[->|[->|[->|[->|[->|[->|[->|[->| ->]]]]]]]]].

Lemma N_of_digit_char (d : Z) :
  0 <= d <= 9 → N_of_ascii (digit_char d) = (48 + Z.to_N d)%N.
Proof. intros H. each_digit d H; reflexivity. Qed.

Lemma is_digit_digit_char (d : Z) : 0 <= d <= 9 → is_digit (digit_char d) = true.
Proof. intros H. each_digit d H; reflexivity. Qed.

Lemma digit_val_digit_char (d : Z) : 0 <= d <= 9 → digit_val (digit_char d) = d.
Proof. intros H. each_digit d H; reflexivity. Qed.

Lemma compare_digit_char (a b : Z) :
  0 <= a <= 9 → 0 <= b <= 9 →
  Ascii.compare (digit_char a) (digit_char b) = (a ?= b).
Proof.
  intros Ha Hb. unfold Ascii.compare.
  rewrite !N_of_digit_char by assumption.
  rewrite <- N2Z.inj_compare, !N2Z.inj_add, !Z2N.id by lia.
  apply Z.add_compare_mono_l.
Qed.

Lemma digit_char_neq (c : ascii) (d : Z) :
  0 <= d <= 9 → is_digit c = false → Ascii.eqb c (digit_char d) = false.
Proof.
  intros H Hc. apply Ascii.eqb_neq. intros ->.
  rewrite is_digit_digit_char in Hc by assumption. discriminate.
Qed.

Lemma zfill_S (k : nat) (n : Z) (rest : string) :
  zfill (S k) n +:+ rest =
  String (digit_char (n / 10 ^ Z.of_nat k)) (zfill k (n mod 10 ^ Z.of_nat k) +:+ rest).
Proof. reflexivity. Qed.

Lemma read_digits_S (k : nat) (acc : Z) (c : ascii) (s : string) :
  is_digit c = true →
  read_digits (S k) acc (String c s) = read_digits k (10 * acc + digit_val c) s.
Proof. intros H. cbn [read_digits]. rewrite H. reflexivity. Qed.

Lemma compare_cons (c1 c2 : ascii) (s1 s2 : string) :
  String.compare (String c1 s1) (String c2 s2) =
  match Ascii.compare c1 c2 with Eq => String.compare s1 s2 | ne => ne end.
Proof. reflexivity. Qed.

(** The leading digit and the rest of a [k+1]-digit number. *)
Lemma split_leading (k : nat) (n : Z) :
  0 <= n < 10 ^ Z.of_nat (S k) →
  0 <= n / 10 ^ Z.of_nat k <= 9 ∧ 0 <= n mod 10 ^ Z.of_nat k < 10 ^ Z.of_nat k.
Proof.
  intros H. rewrite Nat2Z.inj_succ, Z.pow_succ_r in H by lia.
  assert (0 < 10 ^ Z.of_nat k) by (apply Z.pow_pos_nonneg; lia).
  split; [|apply Z.mod_pos_bound; lia].
  split; [apply Z.div_pos; lia|].
  assert (n / 10 ^ Z.of_nat k < 10); [|lia].
  apply Z.div_lt_upper_bound; lia.
Qed.

Lemma read_digits_zfill (k : nat) (n acc : Z) (rest : string) :
  0 <= n < 10 ^ Z.of_nat k →
  read_digits k acc (zfill k n +:+ rest) = Some (acc * 10 ^ Z.of_nat k + n, rest).
Proof.
  revert n acc. induction k as [|k IH]; intros n acc H.
  - simpl in *. f_equal. f_equal. lia.
  - destruct (split_leading k n H) as [Hd Hr].
    rewrite zfill_S, read_digits_S by (apply is_digit_digit_char; assumption).
    rewrite digit_val_digit_char, IH by assumption. f_equal. f_equal.
    rewrite Nat2Z.inj_succ, Z.pow_succ_r by lia.
    pose proof (Z.div_mod n (10 ^ Z.of_nat k)). nia.
Qed.

(** Fields of equal width compare as the numbers they print. *)
Lemma compare_zfill (k : nat) (n m : Z) (s t : string) :
  0 <= n < 10 ^ Z.of_nat k → 0 <= m < 10 ^ Z.of_nat k →
  String.compare (zfill k n +:+ s) (zfill k m +:+ t) =
  match n ?= m with Eq => String.compare s t | c => c end.
Proof.
  revert n m. induction k as [|k IH]; intros n m Hn Hm.
  - simpl in *. assert (n = 0) as -> by lia. assert (m = 0) as -> by lia.
    reflexivity.
  - destruct (split_leading k n Hn) as [Hdn Hrn].
    destruct (split_leading k m Hm) as [Hdm Hrm].
    rewrite !zfill_S, compare_cons, compare_digit_char, IH by assumption.
    assert (0 < 10 ^ Z.of_nat k) by (apply Z.pow_pos_nonneg; lia).
    pose proof (Z.div_mod n (10 ^ Z.of_nat k)).
    pose proof (Z.div_mod m (10 ^ Z.of_nat k)).
    destruct (Z.compare_spec (n / 10 ^ Z.of_nat k) (m / 10 ^ Z.of_nat k)) as [E|L|G].
    + destruct (Z.compare_spec (n mod 10 ^ Z.of_nat k) (m mod 10 ^ Z.of_nat k));
        destruct (Z.compare_spec n m); try reflexivity; exfalso; nia.
    + destruct (Z.compare_spec n m); try reflexivity; exfalso; nia.
    + destruct (Z.compare_spec n m); try reflexivity; exfalso; nia.
Qed.

End DecimalFacts.

(** ** [isoformat] and the ISO 8601 reader *)

Module DatetimeFacts.
Import Decimal DecimalFacts Datetime Iso8601.

Lemma _days_in_month_le (y m : Z) : 1 <= m <= 12 → _days_in_month y m <= 31.
Proof.
  intros H. unfold _days_in_month.
  destruct ((m =? 2) && _is_leap y); [lia|].
  assert (m = 1 ∨ m = 2 ∨ m = 3 ∨ m = 4 ∨ m = 5 ∨ m = 6 ∨ m = 7 ∨ m = 8 ∨
          m = 9 ∨ m = 10 ∨ m = 11 ∨ m = 12) as Hm by lia.
  destruct Hm as [->|[->|[->|[->|[->|[->|[->|[->|[->|[->|[->| ->]]]]]]]]]]];
    simpl; lia.
Qed.

(** Every field of a valid reading fits the width it is printed in. *)
Lemma valid_ranges (r : reading) :
  valid r = true →
  0 <= year r < 10 ^ Z.of_nat 4 ∧ 0 <= month r < 10 ^ Z.of_nat 2 ∧
  0 <= day r < 10 ^ Z.of_nat 2 ∧ 0 <= hour r < 10 ^ Z.of_nat 2 ∧
  0 <= minute r < 10 ^ Z.of_nat 2 ∧ 0 <= second r < 10 ^ Z.of_nat 2 ∧
  0 <= microsecond r < 10 ^ Z.of_nat 6.
Proof.
  unfold valid, _check_date_fields, _check_time_fields. intros H.
  repeat (apply andb_prop in H; destruct H as [H ?]).
  assert (_days_in_month (year r) (month r) <= 31)
    by (apply _days_in_month_le; lia).
  change (10 ^ Z.of_nat 4) with 10000. change (10 ^ Z.of_nat 2) with 100.
  change (10 ^ Z.of_nat 6) with 1000000. lia.
Qed.

Lemma append_cons (x : ascii) (a b : string) :
  String x a +:+ b = String x (a +:+ b).
Proof. reflexivity. Qed.

Lemma append_assoc (a b c : string) : (a +:+ b) +:+ c = a +:+ b +:+ c.
Proof.
  induction a as [|x a IH]; [reflexivity|]. rewrite !append_cons. f_equal. exact IH.
Qed.

Lemma append_empty (a : string) : a +:+ EmptyString = a.
Proof.
  induction a as [|x a IH]; [reflexivity|]. rewrite append_cons. f_equal. exact IH.
Qed.

(** The shape of the string printed for a naive object. *)
Lemma isoformat_naive (r : reading) :
  isoformat (mk_datetime r None) =
  zfill 4 (year r) +:+ String "-" (
  zfill 2 (month r) +:+ String "-" (
  zfill 2 (day r) +:+ String "T" (
  zfill 2 (hour r) +:+ String ":" (
  zfill 2 (minute r) +:+ String ":" (
  zfill 2 (second r) +:+ fraction (microsecond r)))))).
Proof.
  unfold isoformat, _format_time, _format_offset, fraction. cbn [fields tzinfo].
  rewrite append_empty, ?append_assoc.
  destruct (microsecond r =? 0); rewrite ?append_empty; reflexivity.
Qed.

Lemma read_field (k : nat) (n : Z) (rest : string) :
  0 <= n < 10 ^ Z.of_nat k → read_digits k 0 (zfill k n +:+ rest) = Some (n, rest).
Proof. intros H. rewrite read_digits_zfill by assumption. reflexivity. Qed.

Lemma read_char_cons (c : ascii) (s : string) : read_char c (String c s) = Some s.
Proof. unfold read_char. now rewrite Ascii.eqb_refl. Qed.

Lemma read_upto_zfill (k : nat) (n acc : Z) :
  0 <= n < 10 ^ Z.of_nat k →
  read_upto k acc (zfill k n +:+ EmptyString) = (acc * 10 ^ Z.of_nat k + n, EmptyString).
Proof.
  revert n acc. induction k as [|k IH]; intros n acc H.
  - simpl in *. f_equal. lia.
  - destruct (split_leading k n H) as [Hd Hr].
    rewrite zfill_S. cbn [read_upto].
    rewrite is_digit_digit_char, digit_val_digit_char, IH by assumption.
    f_equal. rewrite Nat2Z.inj_succ, Z.pow_succ_r by lia.
    pose proof (Z.div_mod n (10 ^ Z.of_nat k)). nia.
Qed.

Lemma read_fraction_fraction (us : Z) :
  0 <= us < 10 ^ Z.of_nat 6 → read_fraction (fraction us) = Some (us, EmptyString).
Proof.
  intros H. unfold fraction. destruct (Z.eqb_spec us 0) as [->|Hne]; [reflexivity|].
  destruct (split_leading 5 us H) as [Hd Hr].
  rewrite zfill_S. cbn [read_fraction].
  rewrite is_digit_digit_char, digit_val_digit_char, read_upto_zfill by assumption.
  f_equal. f_equal. pose proof (Z.div_mod us (10 ^ Z.of_nat 5)).
  change (10 ^ Z.of_nat 5) with 100000 in *. lia.
Qed.

Lemma bind_Some {A B} (a : A) (f : A → option B) : (Some a ≫= f) = f a.
Proof. reflexivity. Qed.

(** Reading back what [isoformat] prints for a naive object gives its
    fields, and no zone. *)
Lemma parse_isoformat (r : reading) :
  valid r = true → parse (isoformat (mk_datetime r None)) = Some (r, None).
Proof.
  intros Hv. destruct (valid_ranges r Hv) as (Hy & Hm & Hd & Hh & Hmi & Hs & Hu).
  rewrite isoformat_naive. unfold parse.
  repeat (rewrite read_field by assumption; rewrite bind_Some; cbv beta iota;
          rewrite ?read_char_cons, ?bind_Some).
  rewrite read_fraction_fraction by assumption.
  rewrite bind_Some. cbv beta iota. cbn [read_zone]. rewrite bind_Some.
  destruct r; cbn [year month day hour minute second microsecond] in *.
  cbv zeta. rewrite Hv. reflexivity.
Qed.

(** *** Order *)

Lemma compare_cons_same (c : ascii) (s t : string) :
  String.compare (String c s) (String c t) = String.compare s t.
Proof.
  rewrite compare_cons. unfold Ascii.compare. now rewrite N.compare_refl.
Qed.

Lemma compare_fraction (a b : Z) :
  0 <= a < 10 ^ Z.of_nat 6 → 0 <= b < 10 ^ Z.of_nat 6 →
  String.compare (fraction a) (fraction b) = (a ?= b).
Proof.
  intros Ha Hb. unfold fraction.
  destruct (Z.eqb_spec a 0) as [->|Hna], (Z.eqb_spec b 0) as [->|Hnb].
  - reflexivity.
  - symmetry. cbn [String.compare]. apply Z.compare_lt_iff. lia.
  - symmetry. cbn [String.compare]. apply Z.compare_gt_iff. lia.
  - rewrite compare_cons_same, compare_zfill by assumption.
    destruct (a ?= b); reflexivity.
Qed.

(** The strings printed for two naive objects are ordered as the objects
    are. *)
Lemma compare_isoformat (r1 r2 : reading) :
  valid r1 = true → valid r2 = true →
  String.compare (isoformat (mk_datetime r1 None)) (isoformat (mk_datetime r2 None))
  = Datetime.compare r1 r2.
Proof.
  intros Hv1 Hv2.
  destruct (valid_ranges r1 Hv1) as (Hy1 & Hm1 & Hd1 & Hh1 & Hmi1 & Hs1 & Hu1).
  destruct (valid_ranges r2 Hv2) as (Hy2 & Hm2 & Hd2 & Hh2 & Hmi2 & Hs2 & Hu2).
  rewrite !isoformat_naive. unfold Datetime.compare, to_tuple. cbn [_cmp].
  repeat (rewrite compare_zfill by assumption;
          match goal with
          | |- match ?a ?= ?b with _ => _ end = _ => destruct (a ?= b)
          end; [|reflexivity|reflexivity];
          rewrite ?compare_cons_same).
  rewrite compare_fraction by assumption.
  destruct (microsecond r1 ?= microsecond r2); reflexivity.
Qed.

Lemma leb_isoformat (r1 r2 : reading) :
  valid r1 = true → valid r2 = true →
  String.leb (isoformat (mk_datetime r1 None)) (isoformat (mk_datetime r2 None))
  = Datetime.leb r1 r2.
Proof.
  intros Hv1 Hv2. unfold String.leb, Datetime.leb.
  rewrite compare_isoformat by assumption. reflexivity.
Qed.

(** *** No zone designator *)

Lemma eqb_digit_char (c : ascii) (d : Z) :
  0 <= d <= 9 → is_digit c = false → Ascii.eqb (digit_char d) c = false.
Proof.
  intros H Hc. rewrite Ascii.eqb_sym. apply digit_char_neq; assumption.
Qed.

Lemma after_T_zfill (k : nat) (n : Z) (s : string) :
  0 <= n < 10 ^ Z.of_nat k → after_T (zfill k n +:+ s) = after_T s.
Proof.
  revert n. induction k as [|k IH]; intros n H; [reflexivity|].
  destruct (split_leading k n H) as [Hd Hr].
  rewrite zfill_S. cbn [after_T].
  rewrite eqb_digit_char by (assumption || reflexivity). apply IH, Hr.
Qed.

Lemma occurs_zfill (c : ascii) (k : nat) (n : Z) (s : string) :
  is_digit c = false → 0 <= n < 10 ^ Z.of_nat k →
  occurs c (zfill k n +:+ s) = occurs c s.
Proof.
  intros Hc. revert n. induction k as [|k IH]; intros n H; [reflexivity|].
  destruct (split_leading k n H) as [Hd Hr].
  rewrite zfill_S. cbn [occurs].
  rewrite digit_char_neq by assumption. apply IH, Hr.
Qed.

Lemma occurs_cons_ne (c x : ascii) (s : string) :
  Ascii.eqb c x = false → occurs c (String x s) = occurs c s.
Proof. intros H. cbn [occurs]. now rewrite H. Qed.

Lemma after_T_isoformat (r : reading) :
  valid r = true →
  after_T (isoformat (mk_datetime r None)) =
  zfill 2 (hour r) +:+ String ":" (
  zfill 2 (minute r) +:+ String ":" (
  zfill 2 (second r) +:+ fraction (microsecond r))).
Proof.
  intros Hv. destruct (valid_ranges r Hv) as (Hy & Hm & Hd & Hh & Hmi & Hs & Hu).
  rewrite isoformat_naive.
  rewrite after_T_zfill by assumption. cbn [after_T].
  change (Ascii.eqb "-" "T") with false. cbv iota.
  rewrite after_T_zfill by assumption. cbn [after_T].
  change (Ascii.eqb "-" "T") with false. cbv iota.
  rewrite after_T_zfill by assumption. cbn [after_T].
  change (Ascii.eqb "T" "T") with true. reflexivity.
Qed.

(** A character that is no digit, colon or full stop does not occur in
    the time of day printed for a naive object. *)
Lemma occurs_time (c : ascii) (r : reading) :
  valid r = true →
  is_digit c = false → Ascii.eqb c ":" = false → Ascii.eqb c "." = false →
  occurs c (after_T (isoformat (mk_datetime r None))) = false.
Proof.
  intros Hv Hc Hcolon Hstop.
  destruct (valid_ranges r Hv) as (Hy & Hm & Hd & Hh & Hmi & Hs & Hu).
  rewrite after_T_isoformat by assumption.
  repeat (rewrite occurs_zfill by assumption; rewrite ?occurs_cons_ne by assumption).
  unfold fraction. destruct (microsecond r =? 0); [reflexivity|].
  rewrite occurs_cons_ne, occurs_zfill by assumption. reflexivity.
Qed.

Lemma no_zone_designator (r : reading) :
  valid r = true → has_zone_designator (isoformat (mk_datetime r None)) = false.
Proof.
  intros Hv. unfold has_zone_designator.
  rewrite !occurs_time by (assumption || reflexivity). reflexivity.
Qed.

End DatetimeFacts.

(** ** The view functions and the routes *)

Module ProgramFacts.
Import Flask.

Lemma home_run (w : world) :
  home w =
  (jsonify (dict [("message", "Hello from Dockerized Flask!");
                  ("container", hostname w);
                  ("timestamp", Datetime.isoformat (Datetime.mk_datetime (clock w) None))]),
   w).
Proof. reflexivity. Qed.

Lemma health_run (w : world) :
  health w = (jsonify (dict [("status", "healthy")]), w).
Proof. reflexivity. Qed.

Lemma dict3_dom (k1 k2 k3 v1 v2 v3 : string) :
  dom (dict [(k1, v1); (k2, v2); (k3, v3)]) = ({[k1; k2; k3]} : gset string).
Proof.
  unfold dict. cbn [foldl fst snd]. rewrite !dom_insert_L, dom_empty_L.
  apply set_eq. intros x.
  rewrite !elem_of_union, !elem_of_singleton, elem_of_empty. tauto.
Qed.

Lemma dict1 (k v : string) : dict [(k, v)] = {[k := v]}.
Proof. reflexivity. Qed.

Lemma home_lookup (w : world) (k : string) :
  field k (result home w) =
  if bool_decide (k = "timestamp")
  then Some (Datetime.isoformat (Datetime.mk_datetime (clock w) None))
  else if bool_decide (k = "container") then Some (hostname w)
  else if bool_decide (k = "message") then Some "Hello from Dockerized Flask!"
  else None.
Proof.
  unfold field, result. rewrite home_run.
  cbn [fst json body jsonify mbind option_bind].
  unfold dict. cbn [foldl fst snd].
  repeat case_bool_decide; subst;
    rewrite ?lookup_insert_eq, ?lookup_insert_ne, ?lookup_empty by congruence;
    reflexivity.
Qed.

Lemma views_home : view_functions app !! "home" = Some home.
Proof. unfold app, route, new. cbn [view_functions]. by simplify_map_eq. Qed.

Lemma views_health : view_functions app !! "health" = Some health.
Proof. unfold app, route, new. cbn [view_functions]. by simplify_map_eq. Qed.

Lemma url_map_app :
  url_map app = [mk_rule "/" "home" ["GET"; "HEAD"; "OPTIONS"];
                 mk_rule "/health" "health" ["GET"; "HEAD"; "OPTIONS"]].
Proof. reflexivity. Qed.

Lemma dispatch_home (req : request) :
  path req = "/" → for_view req → dispatch_request app req = home.
Proof.
  intros Hp Hm. unfold dispatch_request, resolve. rewrite url_map_app, Hp.
  cbn [url_match rule_path methods endpoint].
  rewrite bool_decide_eq_true_2 by reflexivity.
  rewrite bool_decide_eq_true_2
    by (destruct Hm as [-> | ->]; rewrite !elem_of_cons; auto).
  rewrite bool_decide_eq_false_2 by (destruct Hm as [-> | ->]; discriminate).
  cbn [endpoint]. rewrite views_home. reflexivity.
Qed.

Lemma dispatch_health (req : request) :
  path req = "/health" → for_view req → dispatch_request app req = health.
Proof.
  intros Hp Hm. unfold dispatch_request, resolve. rewrite url_map_app, Hp.
  cbn [url_match rule_path methods endpoint].
  rewrite bool_decide_eq_false_2 by discriminate.
  rewrite bool_decide_eq_true_2 by reflexivity.
  rewrite bool_decide_eq_true_2
    by (destruct Hm as [-> | ->]; rewrite !elem_of_cons; auto).
  rewrite bool_decide_eq_false_2 by (destruct Hm as [-> | ->]; discriminate).
  cbn [endpoint]. rewrite views_health. reflexivity.
Qed.

Lemma url_match_elsewhere (m p : string) :
  p ≠ "/" → p ≠ "/health" → url_match (url_map app) false m p = NoMatch.
Proof.
  intros H1 H2. rewrite url_map_app. cbn [url_match rule_path].
  rewrite !bool_decide_eq_false_2 by congruence. reflexivity.
Qed.

(** Every request is answered by one of the two view functions or by a
    response that does not depend on the world, and leaves the world as
    it was. *)
Lemma dispatch_cases (req : request) (w : world) :
  dispatch_request app req w = home w ∨
  dispatch_request app req w = health w ∨
  dispatch_request app req w = (not_found, w) ∨
  dispatch_request app req w = (method_not_allowed, w) ∨
  dispatch_request app req w = (default_options_response, w).
Proof.
  unfold dispatch_request, resolve. rewrite url_map_app.
  cbn [url_match rule_path methods endpoint].
  repeat case_bool_decide; cbn [endpoint];
    rewrite ?views_home, ?views_health; auto 10.
Qed.

Lemma dispatch_frame (req : request) (w : world) :
  state_after (dispatch_request app req) w = w.
Proof.
  unfold state_after.
  destruct (dispatch_cases req w) as [E|[E|[E|[E|E]]]]; rewrite E; reflexivity.
Qed.

(** A request that is handed to a view function is answered by [home] or
    by [health]. *)
Lemma dispatched_to_cases (req : request) (ep : string) :
  dispatched_to app req = Some ep →
  (ep = "home" ∧ dispatch_request app req = home) ∨
  (ep = "health" ∧ dispatch_request app req = health).
Proof.
  unfold dispatched_to, dispatch_request, resolve. rewrite url_map_app.
  cbn [url_match rule_path methods endpoint].
  repeat case_bool_decide; cbn [endpoint];
    rewrite ?views_home, ?views_health; intros [= <-]; auto.
Qed.

Lemma dispatched_to_elsewhere (req : request) :
  path req ≠ "/" → path req ≠ "/health" → dispatched_to app req = None.
Proof.
  intros H1 H2. unfold dispatched_to, resolve.
  now rewrite url_match_elsewhere by assumption.
Qed.

Lemma result_home (w1 w2 : world) :
  hostname w1 = hostname w2 → clock w1 = clock w2 →
  result home w1 = result home w2.
Proof. intros Hh Hc. unfold result. rewrite !home_run, Hh, Hc. reflexivity. Qed.

End ProgramFacts.

(** ** The serving process *)

Module ProcessFacts.
Import Flask ProgramFacts.

Lemma ascii_compare_refl (a : ascii) : Ascii.compare a a = Eq.
Proof. unfold Ascii.compare. apply N.compare_refl. Qed.

Lemma leb_refl (s : string) : String.leb s s = true.
Proof.
  unfold String.leb. induction s as [|a s IH]; [reflexivity|].
  cbn [String.compare]. now rewrite ascii_compare_refl.
Qed.

Lemma leb_trans (s1 s2 s3 : string) :
  String.leb s1 s2 = true → String.leb s2 s3 = true → String.leb s1 s3 = true.
Proof.
  unfold String.leb. revert s2 s3.
  induction s1 as [|a s1 IH]; intros [|b s2] [|c s3]; cbn [String.compare];
    try congruence.
  unfold Ascii.compare.
  destruct (N.compare_spec (N_of_ascii a) (N_of_ascii b)) as [Eab|Lab|Gab];
    destruct (N.compare_spec (N_of_ascii b) (N_of_ascii c)) as [Ebc|Lbc|Gbc];
    destruct (N.compare_spec (N_of_ascii a) (N_of_ascii c)) as [Eac|Lac|Gac];
    try congruence; try lia.
  apply IH.
Qed.

Lemma members_app (k : string) (rs1 rs2 : list response) :
  members k (rs1 ++ rs2) = members k rs1 ++ members k rs2.
Proof. apply omap_app. Qed.

Lemma members_one (k : string) (r : response) :
  members k [r] =
  match field k r with
  | Some v => [v]
  | None => []
  end.
Proof. reflexivity. Qed.

Lemma members_home (w : world) :
  members "timestamp" [result home w] =
    [Datetime.isoformat (Datetime.mk_datetime (clock w) None)] ∧
  members "container" [result home w] = [hostname w].
Proof. rewrite !members_one, !home_lookup. split; reflexivity. Qed.

(** A response carries the clock's reading as its timestamp, or none. *)
Lemma members_timestamp (req : request) (w : world) :
  members "timestamp" [result (dispatch_request app req) w] =
    [Datetime.isoformat (Datetime.mk_datetime (clock w) None)] ∨
  members "timestamp" [result (dispatch_request app req) w] = [].
Proof.
  unfold result.
  destruct (dispatch_cases req w) as [E|[E|[E|[E|E]]]]; rewrite E.
  - left. apply members_home.
  - right. reflexivity.
  - right. reflexivity.
  - right. reflexivity.
  - right. reflexivity.
Qed.

(** A response carries the host name as its container, or none. *)
Lemma members_container (req : request) (w : world) :
  members "container" [result (dispatch_request app req) w] = [hostname w] ∨
  members "container" [result (dispatch_request app req) w] = [].
Proof.
  unfold result.
  destruct (dispatch_cases req w) as [E|[E|[E|[E|E]]]]; rewrite E.
  - left. apply members_home.
  - right. reflexivity.
  - right. reflexivity.
  - right. reflexivity.
  - right. reflexivity.
Qed.

Lemma step_incoming (srv : server) (w : world) (req : request) :
  application srv = app →
  step (Serving srv w) (Incoming req) =
  (Serving srv w, [result (dispatch_request app req) w]).
Proof.
  intros Happ. cbn [step]. rewrite Happ.
  pose proof (dispatch_frame req w) as Hf. unfold state_after, result in *.
  destruct (dispatch_request app req w) as [resp w']. cbn [fst snd] in *.
  now subst.
Qed.

Lemma serve_cons (p : process) (i : input) (ins : list input) :
  serve_forever p (i :: ins) =
  ((serve_forever (step p i).1 ins).1,
   (step p i).2 ++ (serve_forever (step p i).1 ins).2).
Proof.
  cbn [serve_forever]. destruct (step p i) as [p' out]. cbn [fst snd].
  destruct (serve_forever p' ins) as [p'' out']. reflexivity.
Qed.

Lemma serve_stopped (ins : list input) : serve_forever Stopped ins = (Stopped, []).
Proof.
  induction ins as [|i ins IH]; [reflexivity|].
  rewrite serve_cons. cbn [step fst snd]. rewrite IH. reflexivity.
Qed.

Lemma nondecreasing_cons (s : string) (l : list string) :
  Forall (λ x, String.leb s x = true) l → nondecreasing l = true →
  nondecreasing (s :: l) = true.
Proof.
  intros Hall Hl. cbn [nondecreasing]. rewrite Hl, andb_true_r.
  apply forallb_forall. intros x Hx.
  exact (proj1 (List.Forall_forall _ _) Hall x Hx).
Qed.

(** While the clock is never set back, the timestamps sent are in
    non-decreasing order and none is below the reading at the start. *)
Lemma timestamps_sorted (srv : server) (ins : list input) (w : world) :
  application srv = app →
  Datetime.valid (clock w) = true →
  clock_never_set_back (clock w) ins = true →
  let ts := members "timestamp" (serve_forever (Serving srv w) ins).2 in
  nondecreasing ts = true ∧
  Forall (λ x, String.leb (Datetime.isoformat (Datetime.mk_datetime (clock w) None)) x = true) ts.
Proof.
  intros Happ. revert w. induction ins as [|i ins IH]; intros w Hv Hc.
  - split; [reflexivity|constructor].
  - cbv zeta. rewrite serve_cons. cbn [snd]. rewrite members_app.
    destruct i as [t'|h|req|].
    + cbn [step fst snd app]. cbn [clock_never_set_back] in Hc.
      apply andb_prop in Hc. destruct Hc as [Hc Hc'].
      apply andb_prop in Hc. destruct Hc as [Hv' Hle].
      destruct (IH (set_clock t' w) Hv' Hc') as [Hs Hb].
      split; [exact Hs|].
      eapply Forall_impl; [exact Hb|]. intros x Hx.
      eapply leb_trans; [|exact Hx].
      rewrite DatetimeFacts.leb_isoformat by assumption. exact Hle.
    + cbn [step fst snd app]. exact (IH (set_hostname h w) Hv Hc).
    + rewrite step_incoming by assumption. cbn [fst snd].
      destruct (IH w Hv Hc) as [Hs Hb].
      destruct (members_timestamp req w) as [E|E]; rewrite E.
      * split.
        -- apply nondecreasing_cons; assumption.
        -- constructor; [apply leb_refl|exact Hb].
      * split; assumption.
    + cbn [step fst snd app]. rewrite serve_stopped.
      split; [reflexivity|constructor].
Qed.

(** While the host is not renamed, every container sent is its name. *)
Lemma containers_stable (srv : server) (ins : list input) (w : world) :
  application srv = app →
  host_never_renamed ins = true →
  Forall (λ c, c = hostname w) (members "container" (serve_forever (Serving srv w) ins).2).
Proof.
  intros Happ. revert w. induction ins as [|i ins IH]; intros w Hn.
  - constructor.
  - rewrite serve_cons. cbn [snd]. rewrite members_app.
    apply andb_prop in Hn. destruct Hn as [Hi Hn'].
    destruct i as [t'|h|req|].
    + cbn [step fst snd app]. exact (IH (set_clock t' w) Hn').
    + discriminate Hi.
    + rewrite step_incoming by assumption. cbn [fst snd].
      destruct (members_container req w) as [E|E]; rewrite E.
      * constructor; [reflexivity|exact (IH w Hn')].
      * exact (IH w Hn').
    + cbn [step fst snd app]. rewrite serve_stopped. constructor.
Qed.


(** Serving requests leaves the process as it was. *)
Lemma serve_requests (srv : server) (reqs : list request) (w : world) :
  application srv = app →
  (serve_forever (Serving srv w) (map Incoming reqs)).1 = Serving srv w.
Proof.
  intros Happ. induction reqs as [|req reqs IH]; [reflexivity|].
  cbn [map]. rewrite serve_cons, step_incoming by assumption. exact IH.
Qed.

(** The process is serving with the server of line 20, or was not started. *)
Lemma start_cases (w : world) :
  start w = Serving the_server w ∨ start w = Stopped.
Proof.
  unfold start, main. rewrite bool_decide_eq_true_2 by reflexivity.
  unfold run. destruct (run_from_cli w); [right; reflexivity|].
  destruct (port_taken 5000 w); [right|left]; reflexivity.
Qed.


End ProcessFacts.

(** ** Routing *)

Module RoutingFacts.
Import Flask ProgramFacts.

Lemma allowed_for_view (m : string) :
  m ∈ ["GET"; "HEAD"; "OPTIONS"] → m ≠ "OPTIONS" → m = "GET" ∨ m = "HEAD".
Proof.
  rewrite !elem_of_cons, elem_of_nil. intros [->|[->|[->|[]]]] H; auto.
  congruence.
Qed.

Lemma for_view_allowed (req : request) :
  for_view req → method req ∈ ["GET"; "HEAD"; "OPTIONS"] ∧ method req ≠ "OPTIONS".
Proof.
  intros [-> | ->]; (split; [rewrite !elem_of_cons; auto | discriminate]).
Qed.

Lemma dispatched_to_home (req : request) :
  path req = "/" → for_view req → dispatched_to app req = Some "home".
Proof.
  intros Hp Hm. destruct (for_view_allowed req Hm) as [Ha Hno].
  unfold dispatched_to, resolve. rewrite url_map_app, Hp.
  cbn [url_match rule_path methods endpoint].
  rewrite bool_decide_eq_true_2 by reflexivity.
  rewrite bool_decide_eq_true_2 by assumption.
  rewrite bool_decide_eq_false_2 by assumption.
  cbn [endpoint]. rewrite views_home. reflexivity.
Qed.

Lemma dispatched_to_health (req : request) :
  path req = "/health" → for_view req → dispatched_to app req = Some "health".
Proof.
  intros Hp Hm. destruct (for_view_allowed req Hm) as [Ha Hno].
  unfold dispatched_to, resolve. rewrite url_map_app, Hp.
  cbn [url_match rule_path methods endpoint].
  rewrite bool_decide_eq_false_2 by discriminate.
  rewrite bool_decide_eq_true_2 by reflexivity.
  rewrite bool_decide_eq_true_2 by assumption.
  rewrite bool_decide_eq_false_2 by assumption.
  cbn [endpoint]. rewrite views_health. reflexivity.
Qed.

Lemma dispatched_to_inv (req : request) (ep : string) :
  dispatched_to app req = Some ep →
  for_view req ∧
  ((path req = "/" ∧ ep = "home") ∨ (path req = "/health" ∧ ep = "health")).
Proof.
  unfold dispatched_to, resolve. rewrite url_map_app.
  cbn [url_match rule_path methods endpoint].
  repeat case_bool_decide; cbn [endpoint]; intros [= <-];
    (split; [apply allowed_for_view; assumption | auto]).
Qed.

Lemma url_match_wrong_method (m p : string) :
  p = "/" ∨ p = "/health" → m ∉ ["GET"; "HEAD"; "OPTIONS"] →
  url_match (url_map app) false m p = WrongMethod.
Proof.
  intros Hp Hm. rewrite url_map_app. cbn [url_match rule_path methods].
  destruct Hp as [-> | ->].
  - rewrite bool_decide_eq_true_2 by reflexivity.
    rewrite bool_decide_eq_false_2 by assumption.
    rewrite bool_decide_eq_false_2 by discriminate. reflexivity.
  - rewrite bool_decide_eq_false_2 by discriminate.
    rewrite bool_decide_eq_true_2 by reflexivity.
    rewrite bool_decide_eq_false_2 by assumption. reflexivity.
Qed.

End RoutingFacts.

(** ** The application as the server calls it *)

Module WsgiFacts.
Import Flask ProgramFacts Wsgi.



(** A request for a registered path with a method the rule does not list. *)
Lemma route_other_method (req : request) :
  path req = "/" ∨ path req = "/health" →
  method req ∉ default_methods →
  route_request app req = Finished method_not_allowed.
Proof.
  intros Hp Hm.
  pose proof (RoutingFacts.url_match_wrong_method (method req) (path req) Hp Hm) as E.
  unfold route_request, resolve. cbn [with_path method path].
  destruct Hp as [Hp | Hp]; rewrite Hp in *.
  - change (path_part "/") with "/"%string. cbv zeta iota beta.
    change (static_filename "/") with (@None string). cbv iota.
    rewrite E. reflexivity.
  - change (path_part "/health") with "/health"%string. cbv zeta iota beta.
    change (static_filename "/health") with (@None string). cbv iota.
    rewrite E. reflexivity.
Qed.

Lemma merge_slashes_cons2 (a b : ascii) (t : string) :
  merge_slashes (String a (String b t)) =
  if Ascii.eqb a "/" && Ascii.eqb b "/" then String "/" (merge_slashes t)
  else String a (merge_slashes (String b t)).
Proof. reflexivity. Qed.

(** Merging keeps the first character, and what follows a first character
    other than the slash is merged by itself. *)
Lemma merge_head (c : ascii) (m t : string) :
  merge_slashes t = String c m →
  ∃ t', t = String c t' ∧ (Ascii.eqb c "/" = false → m = merge_slashes t').
Proof.
  destruct t as [|a [|b t'']]; [discriminate| |].
  - intros [= -> <-]. eexists. split; reflexivity.
  - rewrite merge_slashes_cons2.
    destruct (Ascii.eqb a "/") eqn:Ea; cbn [andb].
    + destruct (Ascii.eqb b "/") eqn:Eb.
      * apply Ascii.eqb_eq in Ea. subst a. intros [= <- <-].
        eexists. split; [reflexivity|discriminate].
      * intros [= <- <-]. eexists. split; [reflexivity|congruence].
    + intros [= <- <-]. eexists. split; reflexivity.
Qed.

Lemma merge_empty (t : string) : merge_slashes t = EmptyString → t = EmptyString.
Proof.
  destruct t as [|a [|b t'']]; [reflexivity|discriminate|].
  rewrite merge_slashes_cons2.
  destruct (Ascii.eqb a "/" && Ascii.eqb b "/"); discriminate.
Qed.

(** A text without slashes that merging produces was there as it is. *)
Lemma merge_plain (u t : string) :
  Iso8601.occurs "/" u = false → merge_slashes t = u → t = u.
Proof.
  revert t. induction u as [|c u IH]; intros t Hu E.
  - apply merge_empty, E.
  - cbn [Iso8601.occurs] in Hu. apply orb_false_elim in Hu. destruct Hu as [Hc Hu].
    rewrite Ascii.eqb_sym in Hc.
    destruct (merge_head c u t E) as (t' & -> & Hm).
    f_equal. apply IH; [exact Hu|]. symmetry. apply Hm, Hc.
Qed.

Lemma prefix_cons (a b : ascii) (u v : string) :
  String.prefix (String a u) (String b v) = true → a = b ∧ String.prefix u v = true.
Proof. cbn [String.prefix]. destruct (ascii_dec a b); [auto|discriminate]. Qed.

(** A path that merging brings under [static/] was under it. *)
Lemma prefix_static_merge (t : string) :
  String.prefix "static/" (merge_slashes t) = true → String.prefix "static/" t = true.
Proof.
  intros H.
  repeat match type of H with
  | String.prefix (String ?a ?u) (merge_slashes ?x) = true =>
      let c := fresh "c" in let m := fresh "m" in let E := fresh "E" in
      let t' := fresh "t" in let Hm := fresh "Hm" in
      destruct (merge_slashes x) as [|c m] eqn:E; [discriminate H|];
      apply prefix_cons in H; destruct H as [<- H];
      destruct (merge_head _ _ _ E) as (t' & -> & Hm);
      try (rewrite (Hm eq_refl) in H)
  end.
  cbn [String.prefix].
  repeat (destruct (ascii_dec _ _); [|congruence]). now destruct t0.
Qed.

Lemma lstrip_head (s : string) (c : ascii) (t : string) :
  lstrip_slash s = String c t → Ascii.eqb c "/" = false.
Proof.
  induction s as [|a s IH]; [discriminate|]. cbn [lstrip_slash].
  destruct (Ascii.eqb a "/") eqn:Ea; [exact IH|]. now intros [= <- <-].
Qed.

Lemma path_part_cases (s : string) :
  path_part s = EmptyString ∨
  path_part s = "/"%string ∨
  ∃ c t, path_part s = String "/" (String c t) ∧ Ascii.eqb c "/" = false.
Proof.
  destruct s as [|a s]; [left; reflexivity|right].
  cbn [path_part]. destruct (lstrip_slash (String a s)) as [|c t] eqn:E.
  - left. reflexivity.
  - right. exists c, t. split; [reflexivity|]. exact (lstrip_head _ _ _ E).
Qed.

Lemma prefix_slash (u v : string) :
  String.prefix (String "/" u) (String "/" v) = String.prefix u v.
Proof. cbn [String.prefix]. destruct (ascii_dec "/" "/"); congruence. Qed.

Lemma static_filename_outside (p : string) :
  String.prefix "/static/" p = false → static_filename p = None.
Proof. intros H. unfold static_filename. now rewrite H. Qed.

(** A path that is not a route of the program and not under [/static/] is
    matched by nothing, also with its slashes merged. *)
Lemma route_elsewhere (req : request) :
  path_part (path req) ≠ EmptyString →
  path_part (path req) ≠ "/"%string →
  path_part (path req) ≠ "/health"%string →
  String.prefix "/static/" (path_part (path req)) = false →
  route_request app req = Finished not_found.
Proof.
  intros H0 H1 H2 Hs. unfold route_request. cbv zeta.
  destruct (path_part_cases (path req)) as [E|[E|(c & t & E & Hc)]];
    [contradiction|contradiction|].
  rewrite E in *. cbv iota.
  rewrite (static_filename_outside _ Hs).
  rewrite (url_match_elsewhere _ _ H1 H2).
  case_bool_decide; [reflexivity|].
  rewrite merge_slashes_cons2, Hc, andb_false_r in *.
  assert (String.prefix "/static/" (String "/" (merge_slashes (String c t))) = false)
    as Hq.
  { rewrite prefix_slash. rewrite prefix_slash in Hs.
    destruct (String.prefix "static/" (merge_slashes (String c t))) eqn:Ep;
      [|reflexivity].
    apply prefix_static_merge in Ep. congruence. }
  rewrite (static_filename_outside _ Hq).
  rewrite url_match_elsewhere; [reflexivity| |].
  - intros Eq.
    assert (merge_slashes (String c t) = EmptyString) as Em by congruence.
    apply merge_empty in Em. discriminate.
  - intros Eq.
    assert (merge_slashes (String c t) = "health"%string) as Em by congruence.
    apply (merge_plain "health") in Em; [|reflexivity].
    apply H2. now rewrite Em.
Qed.

End WsgiFacts.

Example static_file_goes_to_static_view :
  result (Wsgi.wsgi_app app (get "/static/logo.png")) w_sample
  = Wsgi.StaticFile "logo.png".
Proof. vm_compute. reflexivity. Qed.

Example empty_path_is_redirected :
  result (Wsgi.wsgi_app app (get "")) w_sample = Wsgi.Redirected "/".
Proof. vm_compute. reflexivity. Qed.

Example options_is_answered_by_the_framework :
  result (Wsgi.wsgi_app app (Flask.mk_request "OPTIONS" "/" "" [] "")) w_sample
  = Wsgi.Answered Flask.default_options_response.
Proof. vm_compute. reflexivity. Qed.

(** * The claims *)

Import Flask.







(** C3, as stated, fails: the timestamp is the local wall clock's reading,
    and when that clock is put back between two requests the later
    timestamp is the smaller one. *)
Lemma timestamp_decreases_when_clock_set_back :
  members "timestamp" (serve_forever (start w_sample) clock_set_back).2
    = ["2024-11-03T01:59:59"; "2024-11-03T01:00:00"] ∧
  nondecreasing (members "timestamp" (serve_forever (start w_sample) clock_set_back).2)
    = false.
Proof. split; vm_compute; reflexivity. Qed.

(** C3, amended: as long as the wall clock is never set back during the
    life of the process, the timestamps of the responses, in the order the
    requests are served, are non-decreasing. *)
Theorem timestamps_nondecreasing (w : world) (ins : list input) :
  Datetime.valid (clock w) = true →
  clock_never_set_back (clock w) ins = true →
  nondecreasing (members "timestamp" (serve_forever (start w) ins).2) = true.
Proof.
  intros Hv Hc.
  destruct (ProcessFacts.start_cases w) as [E|E]; rewrite E.
  - apply (ProcessFacts.timestamps_sorted the_server ins w);
      [reflexivity | assumption | assumption].
  - rewrite ProcessFacts.serve_stopped. reflexivity.
Qed.

Lemma timestamps_nondecreasing_witness :
  Datetime.valid (clock w_sample) = true ∧
  clock_never_set_back (clock w_sample) clock_runs_on = true ∧
  nondecreasing (members "timestamp" (serve_forever (start w_sample) clock_runs_on).2) = true.
Proof.
  split; [reflexivity|]. split; [reflexivity|].
  exact (timestamps_nondecreasing w_sample clock_runs_on eq_refl eq_refl).
Defined.

(** C4, as stated, fails: the handler passes the host name on as it reads
    it, and on a host whose name is the empty string the [container] field
    is the empty string. *)
Lemma container_empty_on_unnamed_host :
  field "container" (result home w_unnamed) = Some "" ∧
  ¬ all_fields_nonempty (result home w_unnamed).
Proof.
  assert (field "container" (result home w_unnamed) = Some "") as H
    by (rewrite ProgramFacts.home_lookup; reflexivity).
  split; [exact H|]. intros [_ Hall]. exact (Hall "container" "" H eq_refl).
Qed.

(** C4, amended: in every response of either handler every field is
    present and is a string: [message], [container] and [timestamp] in the
    greeting, [status] in the health response.  [message], [timestamp] and
    [status] are never empty; [container] is the host name read during the
    call, so all fields are non-empty exactly when that name is. *)
Theorem fields_present_and_nonempty (w : world) :
  keys (result home w) = Some ({["message"; "container"; "timestamp"]} : gset string) ∧
  field "message" (result home w) = Some "Hello from Dockerized Flask!" ∧
  field "container" (result home w) = Some (hostname w) ∧
  (∃ ts, field "timestamp" (result home w) = Some ts ∧ ts ≠ "") ∧
  (all_fields_nonempty (result home w) ↔ hostname w ≠ "") ∧
  keys (result health w) = Some ({["status"]} : gset string) ∧
  all_fields_nonempty (result health w).
Proof.
  split; [|split; [|split; [|split; [|split; [|split]]]]].
  - unfold result, keys. rewrite ProgramFacts.home_run.
    cbn [fst json body jsonify fmap option_fmap option_map].
    now rewrite ProgramFacts.dict3_dom.
  - rewrite ProgramFacts.home_lookup. reflexivity.
  - rewrite ProgramFacts.home_lookup. reflexivity.
  - eexists. split; [rewrite ProgramFacts.home_lookup; reflexivity|].
    discriminate.
  - split.
    + intros [_ Hall]. apply (Hall "container").
      rewrite ProgramFacts.home_lookup. reflexivity.
    + intros Hh.
      split; [unfold result; rewrite ProgramFacts.home_run; eexists; reflexivity|].
      intros k v. rewrite ProgramFacts.home_lookup.
      repeat case_bool_decide; intros [= <-]; try assumption; discriminate.
  - unfold result, keys. rewrite ProgramFacts.health_run.
    cbn [fst json body jsonify fmap option_fmap option_map].
    rewrite ProgramFacts.dict1. now rewrite dom_singleton_L.
  - split; [eexists; reflexivity|].
    intros k v. unfold field, result. rewrite ProgramFacts.health_run.
    cbn [fst json body jsonify mbind option_bind]. rewrite ProgramFacts.dict1.
    intros H. apply lookup_singleton_Some in H. destruct H as [_ <-]. discriminate.
Qed.

(** C5, as stated, fails: the host name is read at every request, and when
    the host is renamed between two requests the two [container] fields
    differ. *)
Lemma container_changes_when_host_renamed :
  members "container" (serve_forever (start w_sample) host_renamed).2
    = ["web-1"; "web-2"] ∧
  all_equal (members "container" (serve_forever (start w_sample) host_renamed).2)
    = false.
Proof. split; vm_compute; reflexivity. Qed.

(** C5, amended: as long as the host is not renamed during the life of the
    process, the [container] field of every response to [/] is the host
    name the process started with, so any two of them are equal. *)
Theorem container_stable (w : world) (ins : list input) :
  host_never_renamed ins = true →
  Forall (λ c, c = hostname w) (members "container" (serve_forever (start w) ins).2) ∧
  all_equal (members "container" (serve_forever (start w) ins).2) = true.
Proof.
  intros Hn.
  assert (Forall (λ c, c = hostname w)
            (members "container" (serve_forever (start w) ins).2)) as Hall
    by (destruct (ProcessFacts.start_cases w) as [E|E]; rewrite E;
        [apply (ProcessFacts.containers_stable the_server ins w);
         [reflexivity | assumption]
        |rewrite ProcessFacts.serve_stopped; constructor]).
  split; [exact Hall|].
  destruct (members "container" (serve_forever (start w) ins).2) as [|c l];
    [reflexivity|].
  inversion Hall as [|? ? Hc Hl]; subst.
  cbn [all_equal]. apply forallb_forall. intros x Hx.
  apply String.eqb_eq. symmetry.
  exact (proj1 (List.Forall_forall _ _) Hl x Hx).
Qed.

Lemma container_stable_witness :
  host_never_renamed clock_runs_on = true ∧
  Forall (λ c, c = hostname w_sample)
         (members "container" (serve_forever (start w_sample) clock_runs_on).2) ∧
  all_equal (members "container" (serve_forever (start w_sample) clock_runs_on).2) = true.
Proof.
  split; [reflexivity | exact (container_stable w_sample clock_runs_on eq_refl)].
Defined.

(** C6: handling a request leaves everything the program can observe as it
    was.  Neither view function nor the dispatch of any request changes the
    world (host name, clock, environment, command line, files), and after
    any sequence of requests the process is in the state it started in. *)
Theorem handling_changes_nothing (req : request) (reqs : list request) (w : world) :
  state_after home w = w ∧
  state_after health w = w ∧
  state_after (dispatch_request app req) w = w ∧
  (serve_forever (start w) (map Incoming reqs)).1 = start w.
Proof.
  split; [reflexivity|]. split; [reflexivity|].
  split; [apply ProgramFacts.dispatch_frame|].
  destruct (ProcessFacts.start_cases w) as [E|E]; rewrite E.
  - apply (ProcessFacts.serve_requests the_server). reflexivity.
  - now rewrite ProcessFacts.serve_stopped.
Qed.

(** C7, as stated, fails: the two routes are not all the application
    matches.  Flask registers the rule [/static/<path:filename>] by itself,
    so a [POST] under [/static/] is answered with status 405 and a [GET]
    there is handed to the static view; and the empty path is redirected to
    [/]. *)
Lemma other_paths_not_all_404 :
  path post_static_request ≠ "/" ∧ path post_static_request ≠ "/health" ∧
  Wsgi.wsgi_app app post_static_request w_sample
    = (Wsgi.Answered method_not_allowed, w_sample) ∧
  status_code method_not_allowed = 405 ∧
  Wsgi.called_view app (get "/static/logo.png") = Some "static" ∧
  Wsgi.wsgi_app app (get "") w_sample = (Wsgi.Redirected "/", w_sample).
Proof.
  split; [discriminate|]. split; [discriminate|].
  repeat split; vm_compute; reflexivity.
Qed.

(** C7, amended: a request whose path, leading slashes aside, is not empty,
    not [/] and not [/health], and does not lie under [/static/], is handed
    to no view function, and the application answers with the framework's
    404. *)
Theorem unknown_path_not_found (req : request) (w : world) :
  Wsgi.path_part (path req) ≠ "" →
  Wsgi.path_part (path req) ≠ "/" →
  Wsgi.path_part (path req) ≠ "/health" →
  String.prefix "/static/" (Wsgi.path_part (path req)) = false →
  Wsgi.called_view app req = None ∧
  Wsgi.wsgi_app app req w = (Wsgi.Answered not_found, w) ∧
  status_code not_found = 404.
Proof.
  intros H0 H1 H2 Hs. unfold Wsgi.called_view, Wsgi.wsgi_app.
  rewrite (WsgiFacts.route_elsewhere req H0 H1 H2 Hs). repeat split.
Qed.

Lemma unknown_path_not_found_witness :
  Wsgi.path_part (path (get "/nonexistent")) ≠ "" ∧
  Wsgi.path_part (path (get "/nonexistent")) ≠ "/" ∧
  Wsgi.path_part (path (get "/nonexistent")) ≠ "/health" ∧
  String.prefix "/static/" (Wsgi.path_part (path (get "/nonexistent"))) = false ∧
  Wsgi.called_view app (get "/nonexistent") = None ∧
  Wsgi.wsgi_app app (get "/nonexistent") w_sample
    = (Wsgi.Answered not_found, w_sample) ∧
  status_code not_found = 404.
Proof.
  assert (Wsgi.path_part (path (get "/nonexistent")) ≠ "") as H0
    by (vm_compute; discriminate).
  assert (Wsgi.path_part (path (get "/nonexistent")) ≠ "/") as H1
    by (vm_compute; discriminate).
  assert (Wsgi.path_part (path (get "/nonexistent")) ≠ "/health") as H2
    by (vm_compute; discriminate).
  split; [exact H0|]. split; [exact H1|]. split; [exact H2|].
  split; [reflexivity|].
  exact (unknown_path_not_found (get "/nonexistent") w_sample H0 H1 H2 eq_refl).
Defined.




(** C9: the timestamp is printed from the naive object [now()] returns, the
    reading of the local wall clock: it carries no [Z] and no offset, and
    read back as ISO 8601 it gives a date and a time of day but no zone.
    The same string is produced for the same reading in every time zone,
    so it does not tell the instant. *)
Theorem timestamp_is_naive (w : world) :
  Datetime.valid (clock w) = true →
  ∃ ts,
    field "timestamp" (result home w) = Some ts ∧
    ts = Datetime.isoformat (result now w) ∧
    Datetime.fields (result now w) = clock w ∧
    Datetime.tzinfo (result now w) = None ∧
    Iso8601.has_zone_designator ts = false ∧
    Iso8601.parse ts = Some (clock w, None) ∧
    ∀ z, field "timestamp" (result home (in_zone z w)) = Some ts.
Proof.
  intros Hv. exists (Datetime.isoformat (Datetime.mk_datetime (clock w) None)).
  split; [rewrite ProgramFacts.home_lookup; reflexivity|].
  split; [reflexivity|].
  split; [reflexivity|]. split; [reflexivity|].
  split; [apply DatetimeFacts.no_zone_designator, Hv|].
  split; [apply DatetimeFacts.parse_isoformat, Hv|].
  intros z. rewrite ProgramFacts.home_lookup. reflexivity.
Qed.

Lemma timestamp_is_naive_witness :
  Datetime.valid (clock w_sample) = true ∧
  ∃ ts,
    field "timestamp" (result home w_sample) = Some ts ∧
    ts = Datetime.isoformat (result now w_sample) ∧
    Datetime.fields (result now w_sample) = clock w_sample ∧
    Datetime.tzinfo (result now w_sample) = None ∧
    Iso8601.has_zone_designator ts = false ∧
    Iso8601.parse ts = Some (clock w_sample, None) ∧
    ∀ z, field "timestamp" (result home (in_zone z w_sample)) = Some ts.
Proof. split; [reflexivity | exact (timestamp_is_naive w_sample eq_refl)]. Defined.

(** C10: two requests handed to the same view function, served with the
    same host name and the same clock reading, get the same response,
    whatever their methods, query strings, headers and bodies are and
    whatever else differs in the surroundings. *)
Theorem response_ignores_request (r1 r2 : request) (w1 w2 : world) (ep : string) :
  dispatched_to app r1 = Some ep → dispatched_to app r2 = Some ep →
  hostname w1 = hostname w2 → clock w1 = clock w2 →
  result (dispatch_request app r1) w1 = result (dispatch_request app r2) w2.
Proof.
  intros H1 H2 Hh Hc.
  destruct (ProgramFacts.dispatched_to_cases r1 ep H1) as [[-> E1]|[-> E1]];
    destruct (ProgramFacts.dispatched_to_cases r2 _ H2) as [[? E2]|[? E2]];
    try discriminate; rewrite E1, E2.
  - apply ProgramFacts.result_home; assumption.
  - reflexivity.
Qed.

Lemma response_ignores_request_witness :
  dispatched_to app plain_request = Some "home" ∧
  dispatched_to app loaded_request = Some "home" ∧
  hostname w_sample = hostname w_sample_env ∧
  clock w_sample = clock w_sample_env ∧
  result (dispatch_request app plain_request) w_sample
    = result (dispatch_request app loaded_request) w_sample_env.
Proof.
  split; [reflexivity|]. split; [reflexivity|].
  split; [reflexivity|]. split; [reflexivity|].
  exact (response_ignores_request plain_request loaded_request w_sample w_sample_env
           "home" eq_refl eq_refl eq_refl eq_refl).
Defined.

(** * Further properties of the program *)


(** X2: the application calls a view function only for a [GET] or [HEAD]
    request: [home] only when the path, leading slashes aside, is [/],
    [health] only when it is [/health], and the static view of the
    framework only under [/static/].  No view function runs for another
    method, such as [POST] or [OPTIONS]. *)
Theorem view_called_only_for (req : request) (ep : string) :
  Wsgi.called_view app req = Some ep →
  for_view req ∧
  ((ep = "home" ∧ Wsgi.path_part (path req) = "/") ∨
   (ep = "health" ∧ Wsgi.path_part (path req) = "/health") ∨
   (ep = "static" ∧ String.prefix "/static/" (Wsgi.path_part (path req)) = true)).
Proof.
  unfold Wsgi.called_view, Wsgi.route_request. cbv zeta.
  destruct (Wsgi.path_part (path req)) as [|c0 p'] eqn:Ep.
  - destruct (url_match _ _ _ _); discriminate.
  - destruct (Wsgi.static_filename (String c0 p')) as [f|] eqn:Es.
    + case_bool_decide as Ha; [|discriminate].
      case_bool_decide as Ho; [discriminate|]. intros [= <-].
      split; [exact (RoutingFacts.allowed_for_view _ Ha Ho)|].
      right. right. split; [reflexivity|].
      unfold Wsgi.static_filename in Es.
      destruct (String.prefix "/static/" (String c0 p')); [reflexivity|discriminate].
    + assert (∀ ep', dispatched_to app (Wsgi.with_path (String c0 p') req) = Some ep' →
                for_view req ∧
                ((ep' = "home" ∧ String c0 p' = "/") ∨
                 (ep' = "health" ∧ String c0 p' = "/health") ∨
                 (ep' = "static" ∧ String.prefix "/static/" (String c0 p') = true)))
        as Hold.
      { intros ep' Hd. apply RoutingFacts.dispatched_to_inv in Hd.
        destruct Hd as [Hv [[Hp ->]|[Hp ->]]]; (split; [exact Hv|]); auto. }
      unfold dispatched_to in Hold.
      destruct (url_match (url_map app) false (method req) (String c0 p')) eqn:Eu.
      * destruct (resolve app (Wsgi.with_path (String c0 p') req));
          [intros [= <-]; apply Hold; reflexivity|discriminate].
      * case_bool_decide; [discriminate|].
        destruct (Wsgi.static_filename (Wsgi.merge_slashes (String c0 p')));
          [case_bool_decide; intros; discriminate|].
        destruct (url_match (url_map app) false (method req)
                    (Wsgi.merge_slashes (String c0 p')));
          intros; discriminate.
      * destruct (resolve app (Wsgi.with_path (String c0 p') req));
          [intros [= <-]; apply Hold; reflexivity|discriminate].
Qed.

Lemma view_called_only_for_witness :
  Wsgi.called_view app loaded_request = Some "home" ∧
  for_view loaded_request ∧
  (("home" = "home" ∧ Wsgi.path_part (path loaded_request) = "/") ∨
   ("home" = "health" ∧ Wsgi.path_part (path loaded_request) = "/health") ∨
   ("home" = "static" ∧
    String.prefix "/static/" (Wsgi.path_part (path loaded_request)) = true)).
Proof.
  split; [reflexivity | exact (view_called_only_for loaded_request "home" eq_refl)].
Defined.

(** X3: a request to [/] or [/health] with a method other than [GET],
    [HEAD] and [OPTIONS] is refused with status 405: no view function is
    called, the body is no JSON document and the world is left as it was. *)
Theorem other_methods_refused (req : request) (w : world) :
  path req = "/" ∨ path req = "/health" →
  method req ≠ "GET" → method req ≠ "HEAD" → method req ≠ "OPTIONS" →
  dispatch_request app req w = (method_not_allowed, w) ∧
  status_code (result (dispatch_request app req) w) = 405 ∧
  json (result (dispatch_request app req) w) = None ∧
  dispatched_to app req = None.
Proof.
  intros Hp Hg Hh Ho.
  assert (method req ∉ ["GET"; "HEAD"; "OPTIONS"]) as Hm
    by (rewrite !not_elem_of_cons; repeat split; auto; apply not_elem_of_nil).
  pose proof (RoutingFacts.url_match_wrong_method _ _ Hp Hm) as E.
  assert (dispatch_request app req w = (method_not_allowed, w)) as Ed
    by (unfold dispatch_request, resolve; now rewrite E).
  split; [exact Ed|]. unfold result. rewrite Ed.
  split; [reflexivity|]. split; [reflexivity|].
  unfold dispatched_to, resolve. now rewrite E.
Qed.

Lemma other_methods_refused_witness :
  (path post_request = "/" ∨ path post_request = "/health") ∧
  method post_request ≠ "GET" ∧ method post_request ≠ "HEAD" ∧
  method post_request ≠ "OPTIONS" ∧
  dispatch_request app post_request w_sample = (method_not_allowed, w_sample) ∧
  status_code (result (dispatch_request app post_request) w_sample) = 405 ∧
  json (result (dispatch_request app post_request) w_sample) = None ∧
  dispatched_to app post_request = None.
Proof.
  assert (path post_request = "/" ∨ path post_request = "/health") as Hp
    by (left; reflexivity).
  assert (method post_request ≠ "GET") as Hg by (simpl; discriminate).
  assert (method post_request ≠ "HEAD") as Hh by (simpl; discriminate).
  assert (method post_request ≠ "OPTIONS") as Ho by (simpl; discriminate).
  split; [exact Hp|]. split; [exact Hg|]. split; [exact Hh|]. split; [exact Ho|].
  exact (other_methods_refused post_request w_sample Hp Hg Hh Ho).
Defined.

Module LayoutFacts.
Import Decimal Datetime DecimalFacts DatetimeFacts.

Lemma length_append (a b : string) :
  String.length (a +:+ b) = (String.length a + String.length b)%nat.
Proof.
  induction a as [|x a IH]; [reflexivity|].
  rewrite append_cons. cbn [String.length]. now rewrite IH.
Qed.

Lemma length_zfill (k : nat) (n : Z) : String.length (zfill k n) = k.
Proof.
  revert n. induction k as [|k IH]; intros n; [reflexivity|].
  cbn [zfill String.length]. now rewrite IH.
Qed.

Lemma length_fraction (us : Z) :
  String.length (fraction us) = if us =? 0 then 0%nat else 7%nat.
Proof.
  unfold fraction. destruct (us =? 0); [reflexivity|].
  cbn [String.length]. now rewrite length_append, length_zfill.
Qed.

Lemma length_isoformat (r : reading) :
  String.length (isoformat (mk_datetime r None)) =
  if microsecond r =? 0 then 19%nat else 26%nat.
Proof.
  rewrite isoformat_naive.
  repeat (rewrite length_append, length_zfill; cbn [String.length]).
  rewrite length_fraction. destruct (microsecond r =? 0); reflexivity.
Qed.

(** The separators of the printed string stand at fixed positions. *)
Lemma get_separators (r : reading) :
  let s := isoformat (mk_datetime r None) in
  String.get 4 s = Some "-"%char ∧ String.get 7 s = Some "-"%char ∧
  String.get 10 s = Some "T"%char ∧
  String.get 13 s = Some ":"%char ∧ String.get 16 s = Some ":"%char ∧
  String.get 19 s = String.get 0 (fraction (microsecond r)).
Proof.
  cbv zeta. rewrite isoformat_naive, !zfill_S. repeat split; reflexivity.
Qed.

Lemma get_fraction_0 (us : Z) :
  String.get 0 (fraction us) = if us =? 0 then None else Some "."%char.
Proof. unfold fraction. destruct (us =? 0); reflexivity. Qed.

Lemma compare_Eq_eq (r1 r2 : reading) : Datetime.compare r1 r2 = Eq → r1 = r2.
Proof.
  destruct r1, r2. unfold Datetime.compare, to_tuple.
  cbn [_cmp year month day hour minute second microsecond].
  repeat match goal with
         | |- match ?a ?= ?b with _ => _ end = Eq → _ =>
             destruct (Z.compare_spec a b); [subst | discriminate | discriminate]
         end.
  reflexivity.
Qed.

End LayoutFacts.

(** X4: the timestamp has a fixed layout: hyphens at positions 4 and 7, a
    [T] at position 10 and colons at positions 13 and 16.  It ends after
    the seconds, with 19 characters, when the clock's microsecond field is
    0, and carries a full stop and six more digits, 26 characters in all,
    otherwise. *)
Theorem timestamp_layout (w : world) :
  Datetime.valid (clock w) = true →
  ∃ ts,
    field "timestamp" (result home w) = Some ts ∧
    String.length ts = (if Datetime.microsecond (clock w) =? 0 then 19%nat else 26%nat) ∧
    String.get 4 ts = Some "-"%char ∧ String.get 7 ts = Some "-"%char ∧
    String.get 10 ts = Some "T"%char ∧
    String.get 13 ts = Some ":"%char ∧ String.get 16 ts = Some ":"%char ∧
    String.get 19 ts =
      if Datetime.microsecond (clock w) =? 0 then None else Some "."%char.
Proof.
  intros _. exists (Datetime.isoformat (Datetime.mk_datetime (clock w) None)).
  split; [rewrite ProgramFacts.home_lookup; reflexivity|].
  split; [apply LayoutFacts.length_isoformat|].
  rewrite <- LayoutFacts.get_fraction_0. apply LayoutFacts.get_separators.
Qed.

Lemma timestamp_layout_witness :
  Datetime.valid (clock w_later) = true ∧
  ∃ ts,
    field "timestamp" (result home w_later) = Some ts ∧
    String.length ts = (if Datetime.microsecond (clock w_later) =? 0 then 19%nat else 26%nat) ∧
    String.get 4 ts = Some "-"%char ∧ String.get 7 ts = Some "-"%char ∧
    String.get 10 ts = Some "T"%char ∧
    String.get 13 ts = Some ":"%char ∧ String.get 16 ts = Some ":"%char ∧
    String.get 19 ts =
      if Datetime.microsecond (clock w_later) =? 0 then None else Some "."%char.
Proof. split; [reflexivity | exact (timestamp_layout w_later eq_refl)]. Defined.

(** X5: the timestamps of two greetings are ordered exactly as the clock
    readings they were made from, as strings compared character by
    character; in particular two greetings carry the same timestamp only
    when the clock read the same. *)
Theorem timestamps_order_as_clocks (w1 w2 : world) :
  Datetime.valid (clock w1) = true → Datetime.valid (clock w2) = true →
  ∃ t1 t2,
    field "timestamp" (result home w1) = Some t1 ∧
    field "timestamp" (result home w2) = Some t2 ∧
    String.compare t1 t2 = Datetime.compare (clock w1) (clock w2) ∧
    (t1 = t2 ↔ clock w1 = clock w2).
Proof.
  intros Hv1 Hv2.
  exists (Datetime.isoformat (Datetime.mk_datetime (clock w1) None)),
         (Datetime.isoformat (Datetime.mk_datetime (clock w2) None)).
  split; [rewrite ProgramFacts.home_lookup; reflexivity|].
  split; [rewrite ProgramFacts.home_lookup; reflexivity|].
  split; [apply DatetimeFacts.compare_isoformat; assumption|].
  split; [|intros ->; reflexivity].
  intros E.
  pose proof (DatetimeFacts.parse_isoformat (clock w1) Hv1) as P1.
  pose proof (DatetimeFacts.parse_isoformat (clock w2) Hv2) as P2.
  rewrite E, P2 in P1. congruence.
Qed.

Lemma timestamps_order_as_clocks_witness :
  Datetime.valid (clock w_sample) = true ∧ Datetime.valid (clock w_later) = true ∧
  ∃ t1 t2,
    field "timestamp" (result home w_sample) = Some t1 ∧
    field "timestamp" (result home w_later) = Some t2 ∧
    String.compare t1 t2 = Datetime.compare (clock w_sample) (clock w_later) ∧
    (t1 = t2 ↔ clock w_sample = clock w_later).
Proof.
  split; [reflexivity|]. split; [reflexivity|].
  exact (timestamps_order_as_clocks w_sample w_later eq_refl eq_refl).
Defined.

Module RunFacts.
Import ProgramFacts ProcessFacts.





End RunFacts.



